(** * proman packaging: the command surface and the resolution engine

    The first part embeds [proman_packaging/cli.py] as it is written: the
    module-level configuration object, the guard of [init] and the argument
    guard shared by [install], [uninstall] and [upgrade].  The second part
    models the Lock Store, the Manifest Store, the tracker of installed
    distributions and the transaction of the Install Orchestrator that the
    command surface drives; the Resolver and the Distribution Index are
    parameters of the transaction. *)

From Stdlib Require Import Ascii String.
From stdpp Require Import base option list gmap strings.

Set Warnings "-register-all".

Local Open Scope string_scope.

(** ** Structured documents

    The configuration files are tables of strings, lists and nested
    tables.  A Python [dict] literal keeps its insertion order, so a nested
    table is an association list. *)

Inductive value : Type :=
  | VStr (s : string)
  | VNum (n : nat)
  | VBool (b : bool)
  | VList (l : list value)
  | VDict (d : list (string * value)).

(** [d[k]] on a nested table: the first binding of the key. *)
Fixpoint assoc_get (k : string) (d : list (string * value)) : option value :=
  match d with
  | [] => None
  | (k', v) :: d' => if String.eqb k k' then Some v else assoc_get k d'
  end.

Definition value_get (k : string) (v : value) : option value :=
  match v with
  | VDict d => assoc_get k d
  | _ => None
  end.

Module Cli.

(** [Config(filepath=..., writable=True)]: a path and the document held in
    memory. *)
Record Config : Type := mkConfig {
  filepath : string;
  document : gmap string value
}.

(** The part of the process the commands touch: the files on disk (a path
    is a regular file exactly when it is bound), the module-level
    [source_tree_cfg], what was printed, and the state owned by the
    package manager. *)
Record World (S : Type) : Type := mkWorld {
  files : gmap string (gmap string value);
  source_tree_cfg : Config;
  printed : list string;
  manager : S
}.
Arguments mkWorld {S} _ _ _ _.
Arguments files {S} _.
Arguments source_tree_cfg {S} _.
Arguments printed {S} _.
Arguments manager {S} _.

(** The three methods of [PackageManager] that the commands call.  The
    module builds [package_manager] over [source_tree_mgr], itself built
    over [source_tree_cfg], and over the lock and the distribution path: a
    call may change the files, the configuration document and what is
    printed, besides the state [S] the package manager keeps for itself. *)
Class PackageManager (S : Type) : Type := {
  pm_install :
    option string -> bool -> option string -> option string ->
    bool -> bool -> World S -> World S;
  pm_uninstall : option string -> World S -> World S;
  pm_upgrade : option string -> bool -> World S -> World S
}.

Section Commands.
Context {S : Type} `{PackageManager S}.

Definition print (line : string) (w : World S) : World S :=
  mkWorld (files w) (source_tree_cfg w) (printed w ++ [line]) (manager w).

(** [os.path.isfile(source_tree_cfg.filepath)] *)
Definition isfile (w : World S) : bool :=
  bool_decide (is_Some (files w !! filepath (source_tree_cfg w))).

(** The table assigned to [source_tree_cfg['tool']]. *)
Definition project_table (name : string) : value :=
  VDict [("proman", VDict [
    ("authors", VList [VStr "Jesse P. Johnson"]);
    ("name", VStr name);
    ("description", VStr "Description for the project");
    ("version", VStr "0.1.0");
    ("dependencies", VDict []);
    ("dev-dependencies", VDict [])])].

(** [source_tree_cfg['tool'] = ...] *)
Definition cfg_setitem (k : string) (v : value) (w : World S) : World S :=
  mkWorld (files w)
          (mkConfig (filepath (source_tree_cfg w))
                    (<[k := v]> (document (source_tree_cfg w))))
          (printed w) (manager w).

(** Modelled from the spec: [Config.dump] is not part of the sources; the
    document store is an opaque store with get, set and dump, and dump
    writes the document held in memory to the file at [filepath]. *)
Definition cfg_dump (w : World S) : World S :=
  mkWorld (<[filepath (source_tree_cfg w) := document (source_tree_cfg w)]>
             (files w))
          (source_tree_cfg w) (printed w) (manager w).

Definition init (name : string) (w : World S) : World S :=
  if negb (isfile w) then
    cfg_dump (cfg_setitem "tool" (project_table name) w)
  else
    print "project is already initialized" w.

(** [name and name.startswith('-')]: [None] and the empty string are
    falsy, so the test on the first character is reached only for a
    non-empty string. *)
Definition truthy (name : option string) : bool :=
  match name with
  | Some s => negb (String.eqb s "")
  | None => false
  end.

Definition startswith (p : string) (name : option string) : bool :=
  match name with
  | Some s => String.prefix p s
  | None => false
  end.

Definition install (name : option string) (dev : bool)
    (python platform : option string) (optional prerelease : bool)
    (w : World S) : World S :=
  if truthy name && startswith "-" name then
    print "error: not a valid install argument" w
  else
    pm_install name dev python platform optional prerelease w.

Definition uninstall (name : option string) (w : World S) : World S :=
  if truthy name && startswith "-" name then
    print "error: not a valid install argument" w
  else
    pm_uninstall name w.

Definition upgrade (name : option string) (force : bool)
    (w : World S) : World S :=
  if truthy name && startswith "-" name then
    print "error: not a valid install argument" w
  else
    pm_upgrade name force w.

End Commands.

End Cli.

(** ** The reporting commands of [cli.py]

    [list] and [search] print rows of padded columns.  The distributions
    and the search results come from objects that are not part of the
    sources, so they are arguments here. *)

Module CliOutput.
Import Cli.

Fixpoint spaces (n : nat) : string :=
  match n with
  | 0 => ""
  | S n' => String " "%char (spaces n')
  end.

(** [s.ljust(width)]: the string padded with spaces on the right up to
    [width]; the string itself when it is that long or longer. *)
Definition ljust (s : string) (width : nat) : string :=
  s ++ spaces (width - String.length s).

(** ['\n'] *)
Definition newline : string := String (Ascii.ascii_of_nat 10) "".

(** ['\n'.join(names)] *)
Definition join_lines (names : list string) : string :=
  String.concat newline names.

(** What [list] reads of an element of [local_distribution.packages]. *)
Record Distribution : Type := mkDistribution {
  name : string;
  version : string
}.

(** A value of a package dictionary, as far as the loop of [search] tells
    values apart: a [str], or a value of another type ([None], a number, a
    list) with the text [print] shows for it.  Only a [str] has the method
    [ljust]. *)
Inductive field : Type :=
  | Str (s : string)
  | NotStr (shown : string).

(** What the loop of [search] can raise. *)
Inductive Exception : Type :=
  | KeyError (key : string)
  | AttributeError (attribute : string).

(** [package[key]] on a [dict]. *)
Definition getitem (key : string) (package : gmap string field)
    : Exception + field :=
  match package !! key with
  | Some v => inr v
  | None => inl (KeyError key)
  end.

(** [v.ljust(width)] on a value of the dictionary. *)
Definition ljust_of (v : field) (width : nat) : Exception + string :=
  match v with
  | Str s => inr (ljust s width)
  | NotStr _ => inl (AttributeError "ljust")
  end.

(** [str(v)], what [print] writes for an argument. *)
Definition str (v : field) : string :=
  match v with
  | Str s => s
  | NotStr shown => shown
  end.

(** A package whose row can be printed: a name and a version that are
    strings, and a summary of any type. *)
Definition printable (package : gmap string field) : Prop :=
  (exists n, package !! "name" = Some (Str n))
  /\ (exists v, package !! "version" = Some (Str v))
  /\ is_Some (package !! "summary").

Section Reports.
Context {S : Type}.

(** [print(a, b)]: the arguments separated by one space. *)
Definition print2 (a b : string) (w : World S) : World S :=
  print (a ++ " " ++ b) w.

Definition print3 (a b c : string) (w : World S) : World S :=
  print (a ++ " " ++ b ++ " " ++ c) w.

(** The row [list] prints for one distribution. *)
Definition list_row (k : Distribution) : string :=
  ljust (name k) 25 ++ " " ++ ljust (version k) 15.

(** [list(versions)], with [local_distribution.packages] and
    [local_distribution.package_names] as arguments. *)
Definition list_ (packages : list Distribution) (package_names : list string)
    (versions : bool) (w : World S) : World S :=
  if versions then
    fold_left (fun w k => print2 (ljust (name k) 25) (ljust (version k) 15) w)
              packages w
  else
    print (join_lines package_names) w.

(** The arguments of [print] in the loop of [search], evaluated from left
    to right: [package['name']], its [ljust], [package['version']], its
    [ljust], [package['summary']].  The first step that fails raises. *)
Definition search_row (package : gmap string field) : Exception + string :=
  match getitem "name" package with
  | inl e => inl e
  | inr n =>
      match ljust_of n 25 with
      | inl e => inl e
      | inr a =>
          match getitem "version" package with
          | inl e => inl e
          | inr v =>
              match ljust_of v 15 with
              | inl e => inl e
              | inr b =>
                  match getitem "summary" package with
                  | inl e => inl e
                  | inr summary => inr (a ++ " " ++ b ++ " " ++ str summary)
                  end
              end
          end
      end
  end.

(** [for package in packages: print(...)]: the rows printed before an
    exception stay printed. *)
Fixpoint print_packages (packages : list (gmap string field)) (w : World S)
    : World S * option Exception :=
  match packages with
  | [] => (w, None)
  | package :: rest =>
      match search_row package with
      | inl e => (w, Some e)
      | inr row => print_packages rest (print row w)
      end
  end.

(** The [query] dictionary of [search]: one key per argument except
    [operation], in the order of the literal. *)
Definition search_query
    (name : string)
    (version stable_version author author_email maintainer maintainer_email
     home_page license summary description keywords platform download_url
     classifiers project_url docs_url : option string)
    : list (string * option string) :=
  [("name", Some name);
   ("version", version);
   ("stable_version", stable_version);
   ("author", author);
   ("author_email", author_email);
   ("maintainer", maintainer);
   ("maintainer_email", maintainer_email);
   ("home_page", home_page);
   ("license", license);
   ("summary", summary);
   ("description", description);
   ("keywords", keywords);
   ("platform", platform);
   ("download_url", download_url);
   ("classifiers", classifiers);
   ("project_url", project_url);
   ("docs_url", docs_url)].

(** [package_manager.search(query=..., operation=...)] is not part of the
    sources: it is taken as a function of the query, the operation and the
    world to the packages found and the world it leaves (the package
    manager is built over the configuration document and may print). *)
Variable pm_search :
  list (string * option string) -> option string -> World S ->
  list (gmap string field) * World S.

Definition search
    (name : string)
    (version stable_version author author_email maintainer maintainer_email
     home_page license summary description keywords platform download_url
     classifiers project_url docs_url operation : option string)
    (w : World S) : World S * option Exception :=
  let '(packages, w') :=
    pm_search
      (search_query name version stable_version author author_email
         maintainer maintainer_email home_page license summary description
         keywords platform download_url classifiers project_url docs_url)
      operation w in
  print_packages packages w'.

End Reports.

End CliOutput.

(** ** The lock-consistency engine

    [cli.py] builds a [LockManager] over the document [lock_cfg], a tracker
    of the project-local distribution directory and a [PackageManager] that
    owns both; none of the three is part of the sources.  The definitions of
    this module follow the design document. *)

Module Engine.

(** Modelled from the spec: a LockEntry is a package name, the exact
    version, the content hash, the source URL, the environment markers
    under which it applies and the ordered dependency edges (names of
    other entries).  Names and versions are strings, as [cli.list] prints
    them. *)
Record LockEntry : Type := mkEntry {
  entry_name : string;
  entry_version : string;
  entry_hash : string;
  entry_source : string;
  entry_markers : list string;
  entry_deps : list string
}.

#[global] Instance LockEntry_eq_dec : EqDecision LockEntry.
Proof. solve_decision. Defined.

(** Modelled from the spec: the Lock document is a structured list of
    entries. *)
Definition Lock : Type := list LockEntry.

(** *** Lock Store *)

Definition encode_strings (l : list string) : value := VList (map VStr l).

(** Modelled from the spec: one table per entry of the Lock document, with
    the package name, the exact version, the source, the content hash and
    the resolved dependency edges.  The environment markers of a LockEntry
    are not among the fields of the document. *)
Definition encode_entry (e : LockEntry) : value :=
  VDict [("name", VStr (entry_name e));
         ("version", VStr (entry_version e));
         ("source", VStr (entry_source e));
         ("hash", VStr (entry_hash e));
         ("dependencies", encode_strings (entry_deps e))].

Definition encode_lock (l : Lock) : value := VList (map encode_entry l).

Definition decode_string (v : value) : option string :=
  match v with
  | VStr s => Some s
  | _ => None
  end.

Definition decode_strings (v : value) : option (list string) :=
  match v with
  | VList l => mapM decode_string l
  | _ => None
  end.

(** Modelled from the spec: the entry read back from a table of the Lock
    document; the document holds no markers, so the entry has none. *)
Definition decode_entry (v : value) : option LockEntry :=
  name ← value_get "name" v ≫= decode_string;
  version ← value_get "version" v ≫= decode_string;
  source ← value_get "source" v ≫= decode_string;
  hash ← value_get "hash" v ≫= decode_string;
  deps ← value_get "dependencies" v ≫= decode_strings;
  Some (mkEntry name version hash source [] deps).



Definition decode_lock (v : value) : option Lock :=
  match v with
  | VList l => mapM decode_entry l
  | _ => None
  end.

(** Modelled from the spec: the Lock Store persists through the document
    store; a document is a table, a file system binds paths to
    documents. *)
Record LockStore : Type := mkLockStore {
  lock_path : string;
  disk : gmap string (gmap string value)
}.

Definition staging_path (s : LockStore) : string := lock_path s ++ ".staging".

(** Full write of the new document to the staging location. *)
Definition stage (l : Lock) (s : LockStore) : LockStore :=
  mkLockStore (lock_path s)
    (<[staging_path s := {["package" := encode_lock l]}]> (disk s)).

(** Swap of the staged document into place. *)
Definition swap (s : LockStore) : LockStore :=
  match disk s !! staging_path s with
  | Some d =>
      mkLockStore (lock_path s)
        (<[lock_path s := d]> (delete (staging_path s) (disk s)))
  | None => s
  end.

(** Modelled from the spec: [save(Lock)] writes to a staging location and
    swaps it into place only after the full write. *)
Definition save (l : Lock) (s : LockStore) : LockStore := swap (stage l s).

(** Modelled from the spec: [load() -> Lock | absent]. *)
Definition load (s : LockStore) : option Lock :=
  d ← disk s !! lock_path s;
  v ← d !! "package";
  decode_lock v.

Definition has_name (l : Lock) (n : string) : bool :=
  existsb (fun e => String.eqb (entry_name e) n) l.

Definition find_entry (l : Lock) (n : string) : option LockEntry :=
  find (fun e => String.eqb (entry_name e) n) l.

Definition entry_eqb (a b : LockEntry) : bool := bool_decide (a = b).

Record Diff : Type := mkDiff {
  added : list LockEntry;
  removed : list LockEntry;
  changed : list (LockEntry * LockEntry)
}.

(** Modelled from the spec: [diff(oldLock, newLock)], keyed by package
    name. *)
Definition diff (old new : Lock) : Diff :=
  mkDiff
    (filter (fun e => negb (has_name old (entry_name e))) new)
    (filter (fun e => negb (has_name new (entry_name e))) old)
    (omap (fun o =>
             match find_entry new (entry_name o) with
             | Some n => if entry_eqb o n then None else Some (o, n)
             | None => None
             end) old).

(** *** Manifest Store *)

Inductive Group : Type := Production | Development | Optional.

#[global] Instance Group_eq_dec : EqDecision Group.
Proof. solve_decision. Defined.

Definition group_code (g : Group) : nat :=
  match g with Production => 0 | Development => 1 | Optional => 2 end.

Definition group_of_code (n : nat) : Group :=
  match n with 0 => Production | 1 => Development | _ => Optional end.

#[global] Instance Group_countable : Countable Group.
Proof.
  apply (inj_countable' group_code group_of_code).
  intros []; reflexivity.
Defined.

(** Modelled from the spec: a Requirement is a package name, a version
    constraint expression, a group and the environment markers (Python
    version range, platform filter, prerelease-allowed flag). *)
Record Requirement : Type := mkRequirement {
  req_name : string;
  req_constraint : string;
  req_group : Group;
  req_python : option string;
  req_platform : option string;
  req_prerelease : bool
}.

(** Modelled from the spec: the Requirements of a Manifest are uniquely
    keyed by (package name, group); their order is irrelevant. *)
Record Manifest : Type := mkManifest {
  requirements : gmap (string * Group) Requirement
}.

(** Modelled from the spec: adding a Requirement that exists for the same
    (name, group) replaces it. *)
Definition addRequirement (r : Requirement) (m : Manifest) : Manifest :=
  mkManifest (<[(req_name r, req_group r) := r]> (requirements m)).

(** Modelled from the spec: removing a Requirement that does not exist
    succeeds and changes nothing. *)
Definition removeRequirement (name : string) (g : Group) (m : Manifest)
    : Manifest :=
  mkManifest (delete (name, g) (requirements m)).

Definition list_requirements (m : Manifest) : list Requirement :=
  (map_to_list (requirements m)).*2.

(** *** Installed Distribution Tracker *)

(** Modelled from the spec: what the Distribution Index hands over for one
    LockEntry: the files of the artifact and the hash of its content. *)
Record Artifact : Type := mkArtifact {
  art_hash : string;
  art_files : list string
}.

Record InstalledDistribution : Type := mkDist {
  dist_name : string;
  dist_version : string;
  dist_files : list string;
  dist_location : string
}.

Inductive Error : Type :=
  | ResolutionConflict (requirers : list string)
  | DistributionNotFound (name : string)
  | IntegrityError (expected actual : string)
  | Cancelled.

(** Modelled from the spec: the tracker reflects the project-local
    distribution directory, one distribution per package name. *)
Record Tracker : Type := mkTracker {
  location : string;
  installed : gmap string InstalledDistribution
}.

(** Modelled from the spec: [install(LockEntry, artifact)] fails with
    IntegrityError when the hash of the artifact is not the hash recorded in
    the LockEntry, before anything is changed. *)
Definition tracker_install (e : LockEntry) (a : Artifact) (t : Tracker)
    : Error + Tracker :=
  if String.eqb (art_hash a) (entry_hash e) then
    inr (mkTracker (location t)
           (<[entry_name e :=
                mkDist (entry_name e) (entry_version e) (art_files a)
                       (location t ++ "/" ++ entry_name e)]> (installed t)))
  else
    inl (IntegrityError (entry_hash e) (art_hash a)).

(** Modelled from the spec: [remove(name)]. *)
Definition tracker_remove (name : string) (t : Tracker) : Tracker :=
  mkTracker (location t) (delete name (installed t)).

(** *** Install Orchestrator *)

(** One Tracker mutation of the Applying phase. *)
Inductive Op : Type :=
  | OpInstall (e : LockEntry)
  | OpRemove (name : string).

(** What a performed mutation leaves in the journal of the transaction: an
    install remembers the distribution it displaced, if any, and a removal
    the distribution it took away; both stay available in the prior
    artifact cache until the transaction ends. *)
Inductive Done : Type :=
  | Installed (name : string) (displaced : option InstalledDistribution)
  | Removed (name : string) (prior : InstalledDistribution).

Definition restore (name : string) (d : InstalledDistribution) (t : Tracker)
    : Tracker :=
  mkTracker (location t) (<[name := d]> (installed t)).

(** Modelled from the spec: an install is undone by removing the
    distribution just installed, a removal by reinstalling from the prior
    artifact cache. *)
Definition undo (d : Done) (t : Tracker) : Tracker :=
  match d with
  | Installed name None => tracker_remove name t
  | Installed name (Some prior) => restore name prior (tracker_remove name t)
  | Removed name prior => restore name prior t
  end.

(** The journal holds the most recent mutation first. *)
Definition rollback (journal : list Done) (t : Tracker) : Tracker :=
  fold_left (fun t d => undo d t) journal t.

Inductive Policy : Type := mkPolicy (force : bool) (update : list string).

Inductive Resolution : Type :=
  | Resolved (l : Lock)
  | Conflict (requirers : list string).

Inductive Outcome : Type :=
  | Committed
  | Refused (e : Error)
  | RolledBack (e : Error).

(** Modelled from the spec: the Orchestrator owns the Manifest Store, the
    Lock Store and the Tracker for the time of one transaction. *)
Record State : Type := mkState {
  manifest : Manifest;
  lock_store : LockStore;
  tracker : Tracker;
  outcome : option Outcome
}.

Section Orchestrator.

(** The Resolver and the Distribution Index are collaborators of the
    Orchestrator: a function from requirements, prior lock and policy to a
    lock or a conflict, and the fetch of the artifact of an entry.
    [interrupt] is the number of Tracker operations after which the user
    interrupts the transaction, if ever. *)
Variable resolve : list Requirement -> option Lock -> Policy -> Resolution.
Variable fetch : LockEntry -> option Artifact.
Variable interrupt : option nat.

Definition perform (o : Op) (t : Tracker) : Error + (Tracker * list Done) :=
  match o with
  | OpInstall e =>
      match fetch e with
      | None => inl (DistributionNotFound (entry_name e))
      | Some a =>
          match tracker_install e a t with
          | inl err => inl err
          | inr t' => inr (t', [Installed (entry_name e)
                                  (installed t !! entry_name e)])
          end
      end
  | OpRemove name =>
      match installed t !! name with
      | Some d => inr (tracker_remove name t, [Removed name d])
      | None => inr (t, [])
      end
  end.

Definition interrupted (budget : option nat) : bool :=
  match budget with Some 0 => true | _ => false end.

Definition spend (budget : option nat) : option nat :=
  match budget with Some n => Some (Nat.pred n) | None => None end.

(** The Applying phase: the operations one after the other, until one fails
    or the user interrupts.  The result is the tracker reached, the journal
    and the failure, if any. *)
Fixpoint apply_ops (budget : option nat) (ops : list Op) (t : Tracker)
    (journal : list Done) : Tracker * list Done * option Error :=
  match ops with
  | [] => (t, journal, None)
  | o :: ops' =>
      if interrupted budget then (t, journal, Some Cancelled)
      else
        match perform o t with
        | inl err => (t, journal, Some err)
        | inr (t', done) => apply_ops (spend budget) ops' t' (done ++ journal)
        end
  end.

(** A removed entry still has a referrer when a requirement of the manifest
    names it or an entry of the new lock depends on it. *)
Definition has_referrer (m : Manifest) (new : Lock) (name : string) : bool :=
  existsb (fun r => String.eqb (req_name r) name) (list_requirements m)
  || existsb (fun e => existsb (String.eqb name) (entry_deps e)) new.

(** Modelled from the spec: Diffing to Applying.  Every added or changed
    entry is installed; the removals of entries without a remaining referrer
    form a batch after the installs. *)
Definition plan (m : Manifest) (new : Lock) (d : Diff) : list Op :=
  map OpInstall (added d ++ (changed d).*2)
  ++ map (fun e => OpRemove (entry_name e))
       (filter (fun e => negb (has_referrer m new (entry_name e))) (removed d)).

(** Modelled from the spec: one transaction of the state machine
    Idle, Resolving, Diffing, Applying, Committing, Idle, with RolledBack
    reached from Applying.  The Manifest is mutated in memory first; a
    conflict discards the mutation; a failure of the Applying phase reverts
    the journal and persists nothing; success persists the Lock, then the
    Manifest. *)
Definition transaction (mutate : Manifest -> Manifest) (p : Policy)
    (s : State) : State :=
  let m' := mutate (manifest s) in
  let prior := load (lock_store s) in
  match resolve (list_requirements m') prior p with
  | Conflict rs =>
      mkState (manifest s) (lock_store s) (tracker s)
              (Some (Refused (ResolutionConflict rs)))
  | Resolved new =>
      let d := diff (default [] prior) new in
      match apply_ops interrupt (plan m' new d) (tracker s) [] with
      | (t', journal, Some err) =>
          mkState (manifest s) (lock_store s) (rollback journal t')
                  (Some (RolledBack err))
      | (t', _, None) =>
          mkState m' (save new (lock_store s)) t' (Some Committed)
      end
  end.

End Orchestrator.

End Engine.

(** ** A transaction of five installs

    The inputs of the rollback test of the design document: the resolver
    answers with the locked package and five new ones, the index serves a
    tampered artifact for the third of the five, and the directory holds the
    distribution of the locked package. *)

Module Scenario.
Import Engine.

Definition pinned (name hash : string) : LockEntry :=
  mkEntry name "1.0.0" hash ("https://pypi.org/simple/" ++ name) [] [].

Definition five_lock : Lock :=
  [pinned "alpha" "h-alpha"; pinned "beta" "h-beta"; pinned "gamma" "h-gamma";
   pinned "delta" "h-delta"; pinned "epsilon" "h-epsilon"].

Definition locked_before : Lock := [pinned "omega" "h-omega"].

Definition five_resolver
    (_ : list Requirement) (_ : option Lock) (_ : Policy) : Resolution :=
  Resolved (locked_before ++ five_lock)%list.

Definition tampered_third (e : LockEntry) : option Artifact :=
  if String.eqb (entry_name e) "gamma" then
    Some (mkArtifact "tampered" [entry_name e ++ "/__init__.py"])
  else
    Some (mkArtifact (entry_hash e) [entry_name e ++ "/__init__.py"]).

Definition requested : Requirement :=
  mkRequirement "alpha" "*" Production None None false.



Definition before : State :=
  mkState
    (mkManifest {[("omega", Production) :=
                    mkRequirement "omega" "*" Production None None false]})
    (save locked_before (mkLockStore "proman-lock.json" ∅))
    (mkTracker "__pypackages__"
       {["omega" := mkDist "omega" "1.0.0" ["omega/__init__.py"]
                           "__pypackages__/omega"]})
    None.

End Scenario.

(** ** A package manager that records its calls

    An implementation of the three methods that keeps the calls it
    received, and a world over it, to run the commands on. *)

Module Recorder.
Import Cli.
Local Open Scope list_scope.

Inductive Call : Type :=
  | CalledInstall (name : option string) (dev : bool)
      (python platform : option string) (optional prerelease : bool)
  | CalledUninstall (name : option string)
  | CalledUpgrade (name : option string) (force : bool).

Definition record (c : Call) (w : World (list Call)) : World (list Call) :=
  mkWorld (files w) (source_tree_cfg w) (printed w) (manager w ++ [c]).

#[global] Instance recorder : PackageManager (list Call) := {
  pm_install name dev python platform optional prerelease :=
    record (CalledInstall name dev python platform optional prerelease);
  pm_uninstall name := record (CalledUninstall name);
  pm_upgrade name force := record (CalledUpgrade name force)
}.

(** A project without a manifest file; the document in memory holds the
    tables of two other tools. *)
Definition fresh_world : World (list Call) :=
  mkWorld {["README.md" := ∅]}
          (mkConfig "pyproject.toml"
             {["tool" := VDict [("black", VDict [("line-length", VNum 79)])];
               "build-system" := VDict [("requires", VList [VStr "build"])]]})
          [] [].

Definition requests : gmap string CliOutput.field :=
  {["name" := CliOutput.Str "requests"; "version" := CliOutput.Str "2.31.0";
    "summary" := CliOutput.Str "HTTP"]}.

Definition flask : gmap string CliOutput.field :=
  {["name" := CliOutput.Str "flask"; "version" := CliOutput.Str "3.0.0";
    "summary" := CliOutput.NotStr "None"]}.



(** A search that finds two packages with a row each; it prints a line of
    its own. *)
Definition search_complete
    (_ : list (string * option string)) (_ : option string)
    (w : World (list Call))
    : list (gmap string CliOutput.field) * World (list Call) :=
  ([requests; flask], print "searching" w).


End Recorder.

(** * Properties of the command surface *)

Section CliFacts.
Import Cli.
Context {S : Type} `{PackageManager S}.

Lemma truthy_dash (rest : string) :
  truthy (Some ("-" ++ rest)) && startswith "-" (Some ("-" ++ rest)) = true.
Proof.
  cbn. destruct rest; reflexivity.
Qed.

Lemma print_frame (line : string) (w : World S) :
  files (print line w) = files w
  /\ source_tree_cfg (print line w) = source_tree_cfg w
  /\ manager (print line w) = manager w.
Proof. repeat split. Qed.

(** Whatever name reaches the package manager is the one given to the
    command, and the command adds nothing to what the package manager
    does. *)
Lemma uninstall_forwards (name : option string) (w : World S) :
  truthy name && startswith "-" name = false ->
  uninstall name w = pm_uninstall name w.
Proof. unfold uninstall. intros ->. reflexivity. Qed.

Lemma isfile_after_dump (w : World S) : isfile (cfg_dump w) = true.
Proof.
  unfold isfile, cfg_dump. cbn.
  apply bool_decide_eq_true. rewrite lookup_insert_eq. eauto.
Qed.

Lemma isfile_after_init (name : string) (w : World S) :
  isfile (init name w) = true.
Proof.
  unfold init. destruct (isfile w) eqn:E; cbn.
  - exact E.
  - apply isfile_after_dump.
Qed.

(** C9: for a name that starts with the character '-', [install],
    [uninstall] and [upgrade] only print the error message: the package
    manager is not called, so its state (Manifest, Lock, installed
    distributions), the files and the configuration document are the ones
    from before the call. *)
Theorem dash_argument_is_rejected
    (rest : string) (dev optional prerelease force : bool)
    (python platform : option string) (w : World S) :
  let name := Some ("-" ++ rest) in
  let refused := print "error: not a valid install argument" w in
  install name dev python platform optional prerelease w = refused
  /\ uninstall name w = refused
  /\ upgrade name force w = refused
  /\ manager refused = manager w
  /\ files refused = files w
  /\ source_tree_cfg refused = source_tree_cfg w.
Proof.
  intros name refused. subst name refused.
  unfold install, uninstall, upgrade.
  rewrite truthy_dash. repeat split.
Qed.

(** C10: [init] is guarded by the existence of the manifest file.  When the
    file exists, [init] only prints a message.  When it does not, [init]
    binds 'tool' to a fresh project table (version '0.1.0', empty
    'dependencies' and 'dev-dependencies') and dumps the document to the
    file.  A second [init], with any name, changes neither the files nor the
    document: it only prints the message. *)
Theorem init_is_guarded_by_the_manifest_file (n1 n2 : string) (w : World S) :
  let fresh := <["tool" := project_table n1]> (document (source_tree_cfg w)) in
  let proman := fresh !! "tool" ≫= value_get "proman" in
  (if isfile w then
     init n1 w = print "project is already initialized" w
   else
     init n1 w
     = mkWorld (<[filepath (source_tree_cfg w) := fresh]> (files w))
               (mkConfig (filepath (source_tree_cfg w)) fresh)
               (printed w) (manager w)
     /\ proman ≫= value_get "name" = Some (VStr n1)
     /\ proman ≫= value_get "version" = Some (VStr "0.1.0")
     /\ proman ≫= value_get "dependencies" = Some (VDict [])
     /\ proman ≫= value_get "dev-dependencies" = Some (VDict []))
  /\ init n2 (init n1 w) = print "project is already initialized" (init n1 w)
  /\ files (init n2 (init n1 w)) = files (init n1 w)
  /\ source_tree_cfg (init n2 (init n1 w)) = source_tree_cfg (init n1 w)
  /\ manager (init n2 (init n1 w)) = manager (init n1 w).
Proof.
  intros fresh proman. split.
  - unfold init. destruct (isfile w); cbn; [reflexivity|].
    split; [reflexivity|].
    subst proman fresh. rewrite lookup_insert_eq. cbn. repeat split.
  - assert (E : init n2 (init n1 w)
                = print "project is already initialized" (init n1 w)).
    { unfold init at 1. rewrite isfile_after_init. reflexivity. }
    rewrite E. repeat split.
Qed.

End CliFacts.

(** * Properties of the Lock Store *)

Section LockStoreFacts.
Import Engine.










End LockStoreFacts.

(** * Properties of the Manifest Store *)

Section ManifestFacts.
Import Engine.

Lemma manifest_eta (m : Manifest) : mkManifest (requirements m) = m.
Proof. destruct m; reflexivity. Qed.

(** Removing a Requirement that is not in the Manifest changes nothing. *)
Lemma removeRequirement_absent (name : string) (g : Group) (m : Manifest) :
  requirements m !! (name, g) = None -> removeRequirement name g m = m.
Proof.
  intros Hn. unfold removeRequirement. rewrite delete_id by exact Hn.
  apply manifest_eta.
Qed.

(** Removing a Requirement twice is removing it once. *)
Lemma removeRequirement_twice (name : string) (g : Group) (m : Manifest) :
  removeRequirement name g (removeRequirement name g m)
  = removeRequirement name g m.
Proof.
  apply removeRequirement_absent. cbn. apply lookup_delete_eq.
Qed.

(** Adding a Requirement twice is adding it once. *)
Lemma addRequirement_twice (r : Requirement) (m : Manifest) :
  addRequirement r (addRequirement r m) = addRequirement r m.
Proof.
  unfold addRequirement. cbn. rewrite insert_insert_eq. reflexivity.
Qed.

End ManifestFacts.

(** * Properties of the Install Orchestrator *)

Section OrchestratorFacts.
Import Engine.

Variable resolve : list Requirement -> option Lock -> Policy -> Resolution.
Variable fetch : LockEntry -> option Artifact.

Lemma tracker_eta (t : Tracker) : mkTracker (location t) (installed t) = t.
Proof. destruct t; reflexivity. Qed.

Lemma undo_install_fresh name d (t : Tracker) :
  installed t !! name = None ->
  tracker_remove name (mkTracker (location t) (<[name := d]> (installed t))) = t.
Proof.
  intros Hn. unfold tracker_remove. cbn.
  rewrite delete_insert_eq, delete_id by exact Hn. apply tracker_eta.
Qed.

Lemma undo_install_over name d prior (t : Tracker) :
  installed t !! name = Some prior ->
  restore name prior
    (tracker_remove name (mkTracker (location t) (<[name := d]> (installed t))))
  = t.
Proof.
  intros Hn. unfold restore, tracker_remove. cbn.
  rewrite delete_insert_eq, insert_delete_id by exact Hn. apply tracker_eta.
Qed.

Lemma undo_remove name prior (t : Tracker) :
  installed t !! name = Some prior ->
  restore name prior (tracker_remove name t) = t.
Proof.
  intros Hn. unfold restore, tracker_remove. cbn.
  rewrite insert_delete_id by exact Hn. apply tracker_eta.
Qed.

(** Reverting what one operation did gives back the tracker it started
    from. *)
Lemma rollback_perform (o : Op) (t t' : Tracker) (done : list Done) :
  perform fetch o t = inr (t', done) -> rollback done t' = t.
Proof.
  destruct o as [e|name]; cbn.
  - destruct (fetch e) as [a|]; [|discriminate].
    unfold tracker_install.
    destruct (String.eqb (art_hash a) (entry_hash e)); [|discriminate].
    intros [= <- <-]. cbn.
    destruct (installed t !! entry_name e) as [prior|] eqn:E; cbn.
    + apply undo_install_over, E.
    + apply undo_install_fresh, E.
  - destruct (installed t !! name) as [prior|] eqn:E; intros [= <- <-]; cbn.
    + apply undo_remove, E.
    + reflexivity.
Qed.

Lemma rollback_app (j1 j2 : list Done) (t : Tracker) :
  rollback (j1 ++ j2) t = rollback j2 (rollback j1 t).
Proof. apply fold_left_app. Qed.

(** Wherever the Applying phase stops, reverting the journal it returns
    leads to the same tracker as reverting the journal it was given. *)
Lemma rollback_apply_ops (ops : list Op) :
  forall budget t journal t' journal' r,
    apply_ops fetch budget ops t journal = (t', journal', r) ->
    rollback journal' t' = rollback journal t.
Proof.
  induction ops as [|o ops IH]; intros budget t journal t' journal' r; cbn.
  - intros [= <- <- <-]. reflexivity.
  - destruct (interrupted budget).
    + intros [= <- <- <-]. reflexivity.
    + destruct (perform fetch o t) as [err|[t1 done]] eqn:P.
      * intros [= <- <- <-]. reflexivity.
      * intros A. rewrite (IH _ _ _ _ _ _ A), rollback_app.
        rewrite (rollback_perform _ _ _ _ P). reflexivity.
Qed.

(** A transaction ends rolled back exactly when the resolver answered with
    a lock and the Applying phase stopped on a failure. *)
Lemma rolled_back_iff (mutate : Manifest -> Manifest) (p : Policy)
    (interrupt : option nat) (s : State) (err : Error) :
  outcome (transaction resolve fetch interrupt mutate p s)
  = Some (RolledBack err) <->
  exists new t' journal,
    resolve (list_requirements (mutate (manifest s)))
            (load (lock_store s)) p = Resolved new
    /\ apply_ops fetch interrupt
         (plan (mutate (manifest s)) new
               (diff (default [] (load (lock_store s))) new))
         (tracker s) [] = (t', journal, Some err).
Proof.
  unfold transaction.
  destruct (resolve _ _ _) as [new|rs] eqn:R; cbn.
  - destruct (apply_ops _ _ _ _ _) as [[t' journal] [e|]] eqn:A; cbn.
    + split.
      * intros [= ->]. eauto.
      * intros (new' & t'' & j'' & [= <-] & A'). rewrite A in A'.
        injection A' as _ _ ->. reflexivity.
    + split; [discriminate|].
      intros (new' & t'' & j'' & [= <-] & A'). rewrite A in A'. discriminate.
  - split; [discriminate|]. intros (? & ? & ? & ? & _). discriminate.
Qed.

(** C2: when an operation of the Applying phase fails (an IntegrityError
    of [tracker_install], a missing artifact, an interrupt), the
    transaction ends rolled back with that error: the tracker holds the
    distributions it held before (no new one is left, every removal and
    every displacement is undone) and the Lock Store and the Manifest are
    the ones from before the transaction. *)
Theorem failed_applying_restores_the_state
    (mutate : Manifest -> Manifest) (p : Policy) (interrupt : option nat)
    (s : State) (new : Lock) (t' : Tracker) (journal : list Done)
    (err : Error) :
  resolve (list_requirements (mutate (manifest s)))
          (load (lock_store s)) p = Resolved new ->
  apply_ops fetch interrupt
    (plan (mutate (manifest s)) new
          (diff (default [] (load (lock_store s))) new))
    (tracker s) [] = (t', journal, Some err) ->
  let s' := transaction resolve fetch interrupt mutate p s in
  outcome s' = Some (RolledBack err)
  /\ tracker s' = tracker s
  /\ lock_store s' = lock_store s
  /\ load (lock_store s') = load (lock_store s)
  /\ manifest s' = manifest s.
Proof.
  intros R A s'. subst s'. unfold transaction. rewrite R, A. cbn.
  repeat split.
  rewrite (rollback_apply_ops _ _ _ _ _ _ _ A). reflexivity.
Qed.

End OrchestratorFacts.

(** The rollback test: an IntegrityError on the third of five installs. *)
Lemma rollback_on_third_of_five :
  let s' := Engine.transaction Scenario.five_resolver Scenario.tampered_third
              None (Engine.addRequirement Scenario.requested)
              (Engine.mkPolicy false []) Scenario.before in
  Engine.outcome s'
  = Some (Engine.RolledBack (Engine.IntegrityError "h-gamma" "tampered"))
  /\ Engine.tracker s' = Engine.tracker Scenario.before
  /\ Engine.lock_store s' = Engine.lock_store Scenario.before
  /\ Engine.load (Engine.lock_store s')
     = Engine.load (Engine.lock_store Scenario.before)
  /\ Engine.manifest s' = Engine.manifest Scenario.before.
Proof.
  eapply failed_applying_restores_the_state.
  - reflexivity.
  - vm_compute. reflexivity.
Defined.

(** * More properties of the command surface *)

Section ForwardingFacts.
Import Cli.
Context {S : Type} `{PackageManager S}.

Lemma guard_false (name : option string) :
  (forall rest, name <> Some (String "-" rest)) ->
  truthy name && startswith "-" name = false.
Proof.
  intros Hn. destruct name as [[|c rest]|]; try reflexivity.
  cbn -[ascii_dec].
  destruct (ascii_dec "-" c) as [<-|]; [|reflexivity].
  exfalso. apply (Hn rest). reflexivity.
Qed.

(** X1: a name that does not start with '-' (no name at all and the empty
    string included) reaches the package manager unchanged, together with
    every flag: the command does what the call to the package manager does
    and nothing else, no message of its own included. *)
Theorem other_names_reach_the_package_manager
    (name : option string) (dev optional prerelease force : bool)
    (python platform : option string) (w : World S) :
  (forall rest, name <> Some (String "-" rest)) ->
  install name dev python platform optional prerelease w
  = pm_install name dev python platform optional prerelease w
  /\ uninstall name w = pm_uninstall name w
  /\ upgrade name force w = pm_upgrade name force w.
Proof.
  intros Hn. unfold install, uninstall, upgrade.
  rewrite (guard_false _ Hn). repeat split.
Qed.

(** X2: the only key of the configuration document [init] binds is
    'tool': whether the manifest file exists or not, every other key of the
    document holds what it held, and the path of the document is the
    same. *)
Theorem init_binds_no_other_key (n : string) (w : World S) (key : string) :
  key <> "tool" ->
  document (source_tree_cfg (init n w)) !! key
  = document (source_tree_cfg w) !! key
  /\ filepath (source_tree_cfg (init n w)) = filepath (source_tree_cfg w).
Proof.
  intros Hk. unfold init. destruct (isfile w); cbn.
  - repeat split.
  - rewrite lookup_insert_ne by congruence. repeat split.
Qed.

Lemma proman_is_the_only_table (n key : string) :
  key <> "proman" -> value_get key (project_table n) = None.
Proof.
  intros Hk. cbn. apply String.eqb_neq in Hk. rewrite Hk. reflexivity.
Qed.

(** X3: without a manifest file, [init] replaces the whole 'tool' table of
    the document: whatever tables other than 'proman' it held are gone, and
    the file written holds exactly the document in memory. *)
Theorem init_replaces_the_tool_table (n : string) (w : World S) (key : string) :
  isfile w = false ->
  key <> "proman" ->
  let w' := init n w in
  document (source_tree_cfg w') !! "tool" ≫= value_get key = None
  /\ (document (source_tree_cfg w') !! "tool" ≫= value_get "proman")
       ≫= value_get "name" = Some (VStr n)
  /\ files w' !! filepath (source_tree_cfg w')
     = Some (document (source_tree_cfg w')).
Proof.
  intros Hf Hk w'. subst w'. unfold init. rewrite Hf. cbn -[project_table].
  rewrite !lookup_insert_eq. cbn -[project_table].
  rewrite (proman_is_the_only_table _ _ Hk). repeat split.
Qed.

End ForwardingFacts.

Lemma plain_names_are_forwarded :
  Cli.manager
    (Cli.install None true (Some "3.8") None false true Recorder.fresh_world)
  = [Recorder.CalledInstall None true (Some "3.8") None false true]
  /\ Cli.manager (Cli.uninstall (Some "") Recorder.fresh_world)
     = [Recorder.CalledUninstall (Some "")]
  /\ Cli.manager (Cli.upgrade (Some "a-b") true Recorder.fresh_world)
     = [Recorder.CalledUpgrade (Some "a-b") true].
Proof.
  pose proof (other_names_reach_the_package_manager
                None true false true false (Some "3.8") None
                Recorder.fresh_world ltac:(discriminate)) as (E & _ & _).
  pose proof (other_names_reach_the_package_manager
                (Some "") false false false false None None
                Recorder.fresh_world ltac:(discriminate)) as (_ & E' & _).
  pose proof (other_names_reach_the_package_manager
                (Some "a-b") false false false true None None
                Recorder.fresh_world ltac:(discriminate)) as (_ & _ & E'').
  rewrite E, E', E''. repeat split.
Defined.

Lemma init_keeps_the_build_system :
  Cli.document (Cli.source_tree_cfg (Cli.init "demo" Recorder.fresh_world))
    !! "build-system"
  = Some (VDict [("requires", VList [VStr "build"])]).
Proof.
  destruct (init_binds_no_other_key "demo" Recorder.fresh_world
              "build-system" ltac:(discriminate)) as (E & _).
  rewrite E. reflexivity.
Defined.

Lemma init_drops_the_other_tools :
  Cli.document (Cli.source_tree_cfg (Cli.init "demo" Recorder.fresh_world))
    !! "tool" ≫= value_get "black" = None.
Proof.
  apply (init_replaces_the_tool_table "demo" Recorder.fresh_world "black");
    [reflexivity | discriminate].
Defined.

(** * Properties of the reporting commands *)

Section ReportFacts.
Import Cli CliOutput.
Context {S : Type}.

Lemma append_cons (x : ascii) (a b : string) :
  String x a ++ b = String x (a ++ b).
Proof. reflexivity. Qed.

Lemma append_empty (b : string) : "" ++ b = b.
Proof. reflexivity. Qed.

Lemma length_spaces (n : nat) : String.length (spaces n) = n.
Proof. induction n as [|n IH]; simpl; [reflexivity|]. rewrite IH. reflexivity. Qed.

Lemma length_append (a b : string) :
  String.length (a ++ b) = String.length a + String.length b.
Proof.
  induction a as [|c a IH]; [reflexivity|].
  rewrite append_cons. simpl. rewrite IH. reflexivity.
Qed.

Lemma append_assoc (a b c : string) : (a ++ b) ++ c = a ++ (b ++ c).
Proof.
  induction a as [|x a IH]; [reflexivity|].
  rewrite !append_cons, IH. reflexivity.
Qed.

Lemma append_empty_r (s : string) : s ++ "" = s.
Proof.
  induction s as [|c s IH]; [reflexivity|].
  rewrite append_cons, IH. reflexivity.
Qed.

Lemma length_ljust (s : string) (width : nat) :
  String.length (ljust s width) = Nat.max (String.length s) width.
Proof. unfold ljust. rewrite length_append, length_spaces. lia. Qed.

(** A string that is already as long as the width comes back as it is. *)
Lemma ljust_long (s : string) (width : nat) :
  width <= String.length s -> ljust s width = s.
Proof.
  intros Hw. unfold ljust. replace (width - String.length s) with 0 by lia.
  apply append_empty_r.
Qed.

Lemma substring_here (b c : string) :
  String.substring 0 (String.length b) (b ++ c) = b.
Proof.
  induction b as [|x b IH].
  - rewrite append_empty. destruct c; reflexivity.
  - rewrite append_cons. simpl. rewrite IH. reflexivity.
Qed.

Lemma substring_middle (a b c : string) :
  String.substring (String.length a) (String.length b) (a ++ b ++ c) = b.
Proof.
  induction a as [|x a IH].
  - rewrite append_empty. apply substring_here.
  - rewrite append_cons. simpl. exact IH.
Qed.

(** X4: the row of a distribution never cuts the name or the version.  It
    starts with the whole name; the version begins one column after the
    name column, which is 25 wide or as wide as a longer name; the row is as
    long as both columns and the space between them. *)
Theorem list_row_layout (k : Distribution) :
  let column := Nat.max (String.length (name k)) 25 in
  String.length (list_row k)
  = column + 1 + Nat.max (String.length (version k)) 15
  /\ String.substring 0 (String.length (name k)) (list_row k) = name k
  /\ String.substring (column + 1) (String.length (version k)) (list_row k)
     = version k.
Proof.
  intros column. subst column. destruct k as [n v]. unfold list_row. cbn [name version].
  repeat split.
  - rewrite !length_append, !length_ljust. cbn. lia.
  - unfold ljust at 1. rewrite append_assoc. apply substring_here.
  - rewrite <- (length_ljust n 25).
    replace (String.length (ljust n 25) + 1)
      with (String.length (ljust n 25 ++ " "))
      by (rewrite length_append; reflexivity).
    unfold ljust at 3. rewrite <- !append_assoc, (append_assoc _ v).
    apply substring_middle.
Qed.

Lemma world_eta (w : World S) :
  mkWorld (files w) (source_tree_cfg w) (printed w) (manager w) = w.
Proof. destruct w; reflexivity. Qed.

Lemma print_rows (packages : list Distribution) :
  forall w : World S,
    fold_left (fun w k => print2 (ljust (name k) 25) (ljust (version k) 15) w)
              packages w
    = mkWorld (files w) (source_tree_cfg w)
              (printed w ++ map list_row packages)%list (manager w).
Proof.
  induction packages as [|k packages IH]; intros w; cbn.
  - rewrite app_nil_r. symmetry. apply world_eta.
  - rewrite IH. cbn. rewrite <- app_assoc. reflexivity.
Qed.

(** X5: with versions, [list] prints one row per distribution, in the
    order of the packages, and nothing for no package; without versions it
    prints once, the names joined by newlines, also when there is no name.
    Neither touches the files, the document or the package manager. *)
Theorem list_prints_rows_or_names
    (packages : list Distribution) (package_names : list string)
    (w : World S) :
  list_ packages package_names true w
  = mkWorld (files w) (source_tree_cfg w)
            (printed w ++ map list_row packages)%list (manager w)
  /\ list_ packages package_names false w
     = mkWorld (files w) (source_tree_cfg w)
               (printed w ++ [join_lines package_names])%list (manager w)
  /\ length (printed (list_ packages package_names true w))
     = length (printed w) + length packages
  /\ length (printed (list_ packages package_names false w))
     = length (printed w) + 1.
Proof.
  unfold list_. rewrite print_rows. cbn.
  rewrite !length_app, length_map. repeat split.
Qed.

End ReportFacts.

Section SearchFacts.
Import Cli CliOutput.
Context {S : Type}.
Variable pm_search :
  list (string * option string) -> option string -> World S ->
  list (gmap string field) * World S.
Variable name : string.
Variables version stable_version author author_email maintainer
  maintainer_email home_page license summary description keywords platform
  download_url classifiers project_url docs_url operation : option string.

Lemma search_row_printable (package : gmap string field) :
  printable package -> exists row, search_row package = inr row.
Proof.
  intros ([n Hn] & [v Hv] & [t Ht]). unfold search_row, getitem.
  rewrite Hn. cbn. rewrite Hv. cbn. rewrite Ht. eauto.
Qed.


(** The loop prints the rows of a run of printable packages and goes on
    with what follows them. *)
Lemma print_packages_app (front : list (gmap string field)) :
  forall w : World S,
    Forall printable front ->
    exists rows,
      Forall2 (fun package row => search_row package = inr row) front rows
      /\ forall rest,
           print_packages (front ++ rest)%list w
           = print_packages rest
               (mkWorld (files w) (source_tree_cfg w)
                        (printed w ++ rows)%list (manager w)).
Proof.
  induction front as [|package front IH]; intros w Hf.
  - exists []. split; [constructor|]. intros rest. cbn.
    rewrite app_nil_r. destruct w; reflexivity.
  - inversion Hf as [|? ? Hp Hf']; subst.
    destruct (search_row_printable _ Hp) as [row Hrow].
    destruct (IH (print row w) Hf') as (rows & Hrows & Hrun).
    exists (row :: rows). split; [constructor; assumption|].
    intros rest. cbn. rewrite Hrow, Hrun. cbn.
    rewrite <- app_assoc. reflexivity.
Qed.

(** X6: when [package_manager.search] returns and every package found has
    a name and a version that are strings and a summary of any type,
    [search] raises nothing: after what the package manager did, it prints
    exactly one row per package, in the order found, and changes nothing
    else. *)
Theorem search_prints_a_row_per_package
    (w w' : World S) (packages : list (gmap string field)) :
  pm_search
    (search_query name version stable_version author author_email maintainer
       maintainer_email home_page license summary description keywords
       platform download_url classifiers project_url docs_url)
    operation w = (packages, w') ->
  Forall printable packages ->
  exists rows,
    Forall2 (fun package row => search_row package = inr row) packages rows
    /\ search pm_search name version stable_version author author_email
         maintainer maintainer_email home_page license summary description
         keywords platform download_url classifiers project_url docs_url
         operation w
       = (mkWorld (files w') (source_tree_cfg w')
                  (printed w' ++ rows)%list (manager w'),
          None).
Proof.
  intros Hs Hc. unfold search. rewrite Hs.
  destruct (print_packages_app packages w' Hc) as (rows & Hrows & Hrun).
  exists rows. split; [exact Hrows|].
  specialize (Hrun []). rewrite app_nil_r in Hrun. rewrite Hrun. reflexivity.
Qed.


End SearchFacts.

Section SearchRows.
Import CliOutput.

(** X8: [search] lays out the name and the version as [list] does: a row
    of [search] is the row [list] prints for that name and version, a space,
    and the summary as [print] shows it, never padded or cut. *)
Theorem search_row_extends_list_row
    (package : gmap string field) (n v : string) (summary : field) :
  package !! "name" = Some (Str n) ->
  package !! "version" = Some (Str v) ->
  package !! "summary" = Some summary ->
  search_row package
  = inr (list_row (mkDistribution n v) ++ " " ++ str summary).
Proof.
  intros Hn Hv Hs. unfold search_row, getitem, list_row.
  rewrite Hn. cbn [ljust_of]. rewrite Hv. cbn [ljust_of]. rewrite Hs.
  cbn [name version]. rewrite !append_assoc. reflexivity.
Qed.

End SearchRows.

Lemma search_of_printable_packages :
  exists rows,
    Forall2 (fun package row => CliOutput.search_row package = inr row)
            [Recorder.requests; Recorder.flask] rows
    /\ CliOutput.search Recorder.search_complete "http"
         None None None None None None None None None None None None None
         None None None (Some "and") Recorder.fresh_world
       = (Cli.mkWorld (Cli.files Recorder.fresh_world)
            (Cli.source_tree_cfg Recorder.fresh_world)
            (["searching"] ++ rows)%list [],
          None).
Proof.
  apply (search_prints_a_row_per_package Recorder.search_complete "http"
           None None None None None None None None None None None None None
           None None None (Some "and") Recorder.fresh_world
           (Cli.print "searching" Recorder.fresh_world)
           [Recorder.requests; Recorder.flask]).
  - reflexivity.
  - repeat constructor; eexists; reflexivity.
Defined.


Lemma search_row_of_requests :
  CliOutput.search_row Recorder.requests
  = inr (CliOutput.list_row (CliOutput.mkDistribution "requests" "2.31.0")
         ++ " " ++ "HTTP").
Proof.
  apply (search_row_extends_list_row Recorder.requests "requests" "2.31.0"
           (CliOutput.Str "HTTP")); reflexivity.
Defined.

